(** * Rotation.py: rigid-body tilted supercell generator

    A shallow embedding of [get_rectangular_mos2], [solve_box_geometry]
    and [create_tilted_cell] of [Rotation.py], and the properties of the
    flat cell, of the geometry solver and of the rigid tilt builder.

    Numbers.  The program computes on double-precision floats.  The main
    model takes every float for a real number of [R], with [np.sqrt],
    [np.arctan], [np.cos], [np.sin] the functions [sqrt], [atan], [cos],
    [sin] of the Standard Library: it is the program up to rounding.
    What is not rounding is modelled or kept out of the statements:
    - the [OverflowError] that [x ** n] raises on Python floats is in the
      model ([py_pow]);
    - the [LinAlgError] of the structure library on a singular lattice is
      in the model ([Structure.init], [Structure.make_supercell]);
    - a power or a product that underflows has lost its digits:
      statements about the values returned take the spacing at least
      [1e-76] and the sheet length at most [1e76] (or, for a spacing of
      0, the sheet length in [double_range]);
    - on the edge [length_sheet = 2 * h_spacing] the radicand of line 63
      is 0 in [R] and can round to a negative double, whose square root
      is NaN: statements about values are made off the edge, and the
      edge is computed in the module [B64], which runs lines 59-66 on
      binary64 numbers. *)

From Stdlib Require Import ZArith Floats.
From Stdlib Require Import Reals Lra Lia String List Permutation.
Import ListNotations.
Set Warnings "-inexact-float".
Open Scope R_scope.

(** ** Exceptions *)

(** The exceptions of the program: the [ValueError] of the solver, with
    the two numbers of its message "Geometry impossible: Sheet length
    (..) < 2*h (..). Increase N." (the spec's GeometryImpossible); the
    [OverflowError] of a float power; the library's [StructureError] on
    species and coordinates of different lengths and its [LinAlgError] on
    a lattice matrix that cannot be inverted. *)
Inductive exn : Type :=
| ValueError (length_sheet two_h : R)
| StructureError
| OverflowError
| LinAlgError.

(** A call either raises or returns; [bind] sequences two calls and lets
    the exception of the first one through, as Python does. *)
Definition result (A : Type) : Type := (exn + A)%type.

Definition bind {A B : Type} (m : result A) (k : A -> result B) : result B :=
  match m with
  | inl e => inl e
  | inr v => k v
  end.

Notation "x <- m ;; k" := (bind m (fun x => k))
  (at level 61, m at next level, right associativity).

(** ** The geometry solver *)

(** A double rounds to infinity from [2^1024 - 2^970] on. *)
Definition overflow_threshold : R := IZR (2 ^ 1024 - 2 ^ 970).

(** [x ** n] on a Python float and a small integer: the power, or
    [OverflowError] when it is out of the range of the doubles. *)
Definition py_pow (x : R) (n : nat) : result R :=
  if Rle_dec overflow_threshold (Rabs (x ^ n))
  then inl OverflowError
  else inr (x ^ n).

(** [solve_box_geometry(length_sheet, h_spacing)], lines 57-68. *)
Definition solve_box_geometry (length_sheet h_spacing : R) : result (R * R * R) :=
  if Rlt_dec length_sheet (2 * h_spacing)
  then inl (ValueError length_sheet (2 * h_spacing))
  else
    p4 <- py_pow length_sheet 4 ;;
    p2 <- py_pow (length_sheet * h_spacing) 2 ;;
    let term := sqrt (p4 - 4 * p2) in
    q2 <- py_pow length_sheet 2 ;;
    let L_planar := sqrt ((q2 + term) / 2) in
    let L_z := (length_sheet * h_spacing) / L_planar in
    let theta := atan (L_z / L_planar) in
    inr (L_planar, L_z, theta).

(** The intermediate values of the solver, named as in the source. *)
Definition term_of (length_sheet h_spacing : R) : R :=
  sqrt (length_sheet ^ 4 - 4 * (length_sheet * h_spacing) ^ 2).

Definition L_planar_of (length_sheet h_spacing : R) : R :=
  sqrt ((length_sheet ^ 2 + term_of length_sheet h_spacing) / 2).

Definition L_z_of (length_sheet h_spacing : R) : R :=
  (length_sheet * h_spacing) / L_planar_of length_sheet h_spacing.

Definition theta_of (length_sheet h_spacing : R) : R :=
  atan (L_z_of length_sheet h_spacing / L_planar_of length_sheet h_spacing).

(** Sheet lengths whose fourth power is a normal double: far above,
    [length_sheet ** 4] overflows; far below, it underflows. *)
Definition double_range (x : R) : Prop := 1e-76 <= x <= 1e76.

(** ** The solver on binary64 numbers

    Lines 59-66 on the doubles themselves, up to the argument of
    [np.arctan]: [*], [/], [-], [+] and [np.sqrt] are the IEEE 754
    operations, and [x ** n] is taken correctly rounded. *)
Module B64.

Variant exn : Type := ValueError | OverflowError.

(** The double nearest to [x ^ n]. *)
Definition pow (x : float) (n : positive) : float :=
  match Prim2SF x with
  | S754_finite s m e =>
      SF2Prim (binary_round prec emax (s && Z.odd (Zpos n))
                 (Pos.pow m n) (e * Zpos n))
  | _ => if Z.odd (Zpos n) then x else PrimFloat.abs x
  end.

(** [x ** n] on Python floats: a finite [x] whose power is infinite
    raises. *)
Definition py_pow (x : float) (n : positive) : exn + float :=
  let y := pow x n in
  if (is_finite x && is_infinity y)%bool then inl OverflowError else inr y.

(** The radicand of line 63, when no power overflows. *)
Definition radicand (length_sheet h_spacing : float) : exn + float :=
  match py_pow length_sheet 4 with
  | inl e => inl e
  | inr p4 =>
    match py_pow (length_sheet * h_spacing)%float 2 with
    | inl e => inl e
    | inr p2 => inr (p4 - 4 * p2)%float
    end
  end.

(** Lines 59-66: the two lengths and the argument of [np.arctan]. *)
Definition solve_box_lengths (length_sheet h_spacing : float)
    : exn + (float * float * float) :=
  if (length_sheet <? 2 * h_spacing)%float then inl ValueError
  else
    match radicand length_sheet h_spacing with
    | inl e => inl e
    | inr r =>
      let term := PrimFloat.sqrt r in
      match py_pow length_sheet 2 with
      | inl e => inl e
      | inr q2 =>
        let L_planar := PrimFloat.sqrt ((q2 + term) / 2)%float in
        let L_z := ((length_sheet * h_spacing) / L_planar)%float in
        inr (L_planar, L_z, (L_z / L_planar)%float)
      end
    end.

(** Lines 89-90 and 112-113: the axis lengths handed to
    [Lattice.from_parameters], for a sheet of length [total_length] and
    second axis [old_b]. *)
Definition box_lengths (total_length old_b h_spacing : float)
    : exn + (float * float * float) :=
  match solve_box_lengths total_length h_spacing with
  | inl e => inl e
  | inr (L_planar, L_z, _) => inr (L_planar, old_b, L_z)
  end.

End B64.

(** ** Vectors and matrices *)

(** A row of an [n x 3] numpy array, and a [3 x 3] array (three rows). *)
Definition vec3 : Type := (R * R * R)%type.
Definition mat3 : Type := (vec3 * vec3 * vec3)%type.

Definition vx (p : vec3) : R := fst (fst p).
Definition vy (p : vec3) : R := snd (fst p).
Definition vz (p : vec3) : R := snd p.

(** [M.T] *)
Definition transpose (M : mat3) : mat3 :=
  let '(r0, r1, r2) := M in
  ((vx r0, vx r1, vx r2), (vy r0, vy r1, vy r2), (vz r0, vz r1, vz r2)).

(** One row of [np.dot(coords, M)]: entry [j] is [sum_k p[k] * M[k][j]]. *)
Definition row_dot (p : vec3) (M : mat3) : vec3 :=
  let '(r0, r1, r2) := M in
  (vx p * vx r0 + vy p * vx r1 + vz p * vx r2,
   vx p * vy r0 + vy p * vy r1 + vz p * vy r2,
   vx p * vz r0 + vy p * vz r1 + vz p * vz r2).

Definition np_dot (coords : list vec3) (M : mat3) : list vec3 :=
  map (fun p => row_dot p M) coords.

Definition np_sum (l : list R) : R := fold_right Rplus 0 l.

(** [np.mean] of a column. *)
Definition np_mean (l : list R) : R := np_sum l / INR (length l).

(** Euclidean distance between two absolute positions. *)
Definition dist (p q : vec3) : R :=
  sqrt ((vx p - vx q) ^ 2 + (vy p - vy q) ^ 2 + (vz p - vz q) ^ 2).

(** ** The crystal-structure collaborator

    [Lattice] and [Structure] are pymatgen's; the library is not part of
    the repository, so the operations the program calls are modelled here
    after the library's interface, for the orthorhombic lattices the
    program builds (every call passes the angles 90, 90, 90). *)

Module Lattice.

(** The library keeps the matrix of the lattice vectors; for the angles
    90, 90, 90 it is the diagonal matrix of the three lengths given, with
    their signs.  The angles are kept as given: the library computes them
    back from the matrix, which gives 90 again as soon as no length is
    zero. *)
Record t : Type := mk {
  xx : R; yy : R; zz : R;          (* the diagonal of the matrix *)
  alpha : R; beta : R; gamma : R   (* degrees *)
}.

Definition from_parameters (a b c alpha beta gamma : R) : t :=
  mk a b c alpha beta gamma.

(** The lengths of the lattice vectors: norms, hence never negative. *)
Definition a (l : t) : R := Rabs (xx l).
Definition b (l : t) : R := Rabs (yy l).
Definition c (l : t) : R := Rabs (zz l).

(** The matrix can be inverted unless a lattice vector is zero. *)
Definition singular (l : t) : bool :=
  if Req_dec_T (xx l * yy l * zz l) 0 then true else false.

(** Modelled from the spec: the lattice is orthogonal, so the conversion
    from fractional to absolute coordinates is a scale per axis, with no
    shear, and the converse (through the inverse matrix) a division per
    axis. *)
Definition get_cartesian_coords (l : t) (f : vec3) : vec3 :=
  (vx f * xx l, vy f * yy l, vz f * zz l).

Definition get_fractional_coords (l : t) (p : vec3) : vec3 :=
  (vx p / xx l, vy p / yy l, vz p / zz l).

End Lattice.

Module Structure.

Record site : Type := mk_site {
  site_species : string;
  site_frac : vec3
}.

Record t : Type := mk {
  lattice : Lattice.t;
  sites : list site
}.

Definition species (s : t) : list string := map site_species (sites s).
Definition frac_coords (s : t) : list vec3 := map site_frac (sites s).

(** The [cart_coords] property: a fresh array at every access. *)
Definition cart_coords (s : t) : list vec3 :=
  map (Lattice.get_cartesian_coords (lattice s)) (frac_coords s).

(** [np.mod(f, 1)] on each component: the periodic image in [0, 1). *)
Definition wrap (f : vec3) : vec3 :=
  (frac_part (vx f), frac_part (vy f), frac_part (vz f)).

(** The constructor, with the library's signature and defaults:
    [Structure(lattice, species, coords, to_unit_cell=False,
    coords_are_cartesian=False)].  It refuses lists of different lengths
    ([StructureError]); it converts absolute coordinates to fractional
    ones when [coords_are_cartesian] is set, which inverts the lattice
    matrix ([LinAlgError] on a singular one), and reduces them modulo 1
    only when [to_unit_cell] is set.  The calls of the program (lines 55
    and 117) never pass [to_unit_cell]. *)
Definition init (l : Lattice.t) (sp : list string) (coords : list vec3)
    (to_unit_cell coords_are_cartesian : bool) : result t :=
  if Nat.eqb (length sp) (length coords) then
    if (coords_are_cartesian && Lattice.singular l)%bool then inl LinAlgError
    else
      inr (mk l
        (map (fun sc : string * vec3 =>
                let f := if coords_are_cartesian
                         then Lattice.get_fractional_coords l (snd sc)
                         else snd sc in
                mk_site (fst sc) (if to_unit_cell then wrap f else f))
             (combine sp coords)))
  else inl StructureError.

(** [copy()], without [sanitize]: the constructor on the structure's own
    lattice, species and fractional coordinates. *)
Definition copy (s : t) : result t :=
  init (lattice s) (species s) (frac_coords s) false false.

(** Modelled from the spec: the cell repeated [N] times along the first
    axis only; the first axis becomes [N] times as long and the other two
    are unchanged.  Every site gives its [N] images, at fractional
    [(x + i) / N] for [i = 0 .. N-1], which the library reduces into the
    unit cell. *)
Definition supercell (s : t) (N : nat) : t :=
  let l := lattice s in
  mk (Lattice.mk (INR N * Lattice.xx l) (Lattice.yy l) (Lattice.zz l)
                 (Lattice.alpha l) (Lattice.beta l) (Lattice.gamma l))
     (flat_map (fun st : site =>
                  map (fun i : nat =>
                         mk_site (site_species st)
                           (wrap ((vx (site_frac st) + INR i) / INR N,
                                  vy (site_frac st), vz (site_frac st))))
                      (seq 0 N))
               (sites s)).

(** [make_supercell([N, 1, 1])]: the images are placed through the
    inverse of the new lattice matrix, so a singular one ([N = 0], or a
    zero length) is a [LinAlgError]. *)
Definition make_supercell (s : t) (N : nat) : result t :=
  if Lattice.singular (lattice (supercell s N)) then inl LinAlgError
  else inr (supercell s N).

End Structure.

(** ** The rigid tilt builder *)

(** [get_rectangular_mos2(a_lattice=3.18, thickness=3.12, vacuum=20.0)],
    lines 24-55. *)
Definition get_rectangular_mos2 (a_lattice thickness vacuum : R) : result Structure.t :=
  let b_lattice := a_lattice * sqrt 3 in
  let lattice := Lattice.from_parameters a_lattice b_lattice vacuum 90 90 90 in
  let z_delta := thickness / vacuum / 2 in
  let z_mo := 0.5 in
  let z_s_top := 0.5 + z_delta in
  let z_s_bot := 0.5 - z_delta in
  let species := ["Mo"; "Mo"; "S"; "S"; "S"; "S"]%string in
  let coords :=
    [ (0, 0, z_mo);
      (0.5, 0.5, z_mo);
      (0, 0, z_s_bot);
      (0, 0, z_s_top);
      (0.5, 0.5, z_s_bot);
      (0.5, 0.5, z_s_top) ] in
  Structure.init lattice species coords false false.

(** Lines 81-86: the absolute positions, shifted so that the mean of the
    third column is zero. *)
Definition centered_coords (struct : Structure.t) : list vec3 :=
  let cart_coords := Structure.cart_coords struct in
  let z_mean := np_mean (map vz cart_coords) in
  map (fun p => (vx p, vy p, vz p - z_mean)) cart_coords.

(** Lines 94-104. *)
Definition rotation_matrix (theta : R) : mat3 :=
  let c := cos theta in
  let s := sin theta in
  ((c, 0, - s),
   (0, 1, 0),
   (s, 0, c)).

(** Line 108. *)
Definition rotated_coords (theta : R) (cart_coords : list vec3) : list vec3 :=
  np_dot cart_coords (transpose (rotation_matrix theta)).

(** [create_tilted_cell(N, h_spacing, a_param=3.18)], lines 70-123. *)
Definition create_tilted_cell (N : nat) (h_spacing a_param : R)
    : result (Structure.t * R) :=
  struct0 <- get_rectangular_mos2 a_param 3.12 20 ;;
  struct <- Structure.make_supercell struct0 N ;;
  let cart_coords := centered_coords struct in
  let total_length := Lattice.a (Structure.lattice struct) in
  sol <- solve_box_geometry total_length h_spacing ;;
  let '(L_planar, L_z, theta) := sol in
  let rotated := rotated_coords theta cart_coords in
  let old_b := Lattice.b (Structure.lattice struct) in
  let new_lattice := Lattice.from_parameters L_planar old_b L_z 90 90 90 in
  new_struct_temp <-
    Structure.init new_lattice (Structure.species struct) rotated false true ;;
  final_struct <- Structure.copy new_struct_temp ;;
  inr (final_struct, theta).

(** ** The values the builder goes through

    The flat cell, the replicated sheet and the tilted cell that
    [create_tilted_cell] builds for a positive lattice constant, written
    out; [create_tilted_cell_returns] below shows that they are what the
    program computes. *)

Definition flat_cell (a_param : R) : Structure.t :=
  Structure.mk
    (Lattice.from_parameters a_param (a_param * sqrt 3) 20 90 90 90)
    [ Structure.mk_site "Mo" (0, 0, 0.5);
      Structure.mk_site "Mo" (0.5, 0.5, 0.5);
      Structure.mk_site "S" (0, 0, 0.5 - 3.12 / 20 / 2);
      Structure.mk_site "S" (0, 0, 0.5 + 3.12 / 20 / 2);
      Structure.mk_site "S" (0.5, 0.5, 0.5 - 3.12 / 20 / 2);
      Structure.mk_site "S" (0.5, 0.5, 0.5 + 3.12 / 20 / 2) ].

Definition replicated_sheet (N : nat) (a_param : R) : Structure.t :=
  Structure.supercell (flat_cell a_param) N.

Definition tilted_lattice (N : nat) (h_spacing a_param : R) : Lattice.t :=
  Lattice.from_parameters
    (L_planar_of (INR N * a_param) h_spacing)
    (a_param * sqrt 3)
    (L_z_of (INR N * a_param) h_spacing)
    90 90 90.

(** The absolute positions after the rotation, one per atom of the sheet. *)
Definition tilted_positions (N : nat) (h_spacing a_param : R) : list vec3 :=
  rotated_coords (theta_of (INR N * a_param) h_spacing)
                 (centered_coords (replicated_sheet N a_param)).

Definition tilted_cell (N : nat) (h_spacing a_param : R) : Structure.t :=
  let nl := tilted_lattice N h_spacing a_param in
  Structure.mk nl
    (map (fun sc : string * vec3 =>
            Structure.mk_site (fst sc) (Lattice.get_fractional_coords nl (snd sc)))
         (combine (Structure.species (replicated_sheet N a_param))
                  (tilted_positions N h_spacing a_param))).

(** The invariant of the data model: every fractional coordinate of every
    atom in [[0, 1)]. *)
Definition in_unit_interval (x : R) : Prop := 0 <= x < 1.

Definition in_unit_cell (f : vec3) : Prop :=
  in_unit_interval (vx f) /\ in_unit_interval (vy f) /\ in_unit_interval (vz f).

(** ** Powers in the range of the doubles *)

Lemma py_pow_returns (x : R) (n : nat) :
  Rabs (x ^ n) < overflow_threshold -> py_pow x n = inr (x ^ n).
Proof.
  intros H. unfold py_pow.
  destruct (Rle_dec overflow_threshold (Rabs (x ^ n))); [lra | reflexivity].
Qed.

Lemma py_pow_raises (x : R) (n : nat) :
  overflow_threshold <= Rabs (x ^ n) -> py_pow x n = inl OverflowError.
Proof.
  intros H. unfold py_pow.
  destruct (Rle_dec overflow_threshold (Rabs (x ^ n))); [reflexivity | lra].
Qed.

Lemma ten_304_below_threshold : 1e76 ^ 4 < overflow_threshold.
Proof.
  unfold overflow_threshold.
  replace 1e76 with (IZR (10 ^ 76)) by (cbv; lra).
  rewrite pow_IZR. apply IZR_lt. vm_compute. reflexivity.
Qed.

Lemma ten_800_above_threshold : overflow_threshold <= 1e200 ^ 4.
Proof.
  unfold overflow_threshold.
  replace 1e200 with (IZR (10 ^ 200)) by (cbv; lra).
  rewrite pow_IZR. apply IZR_le. vm_compute. discriminate.
Qed.

Lemma pow4_in_range (x : R) : Rabs x <= 1e76 -> Rabs (x ^ 4) < overflow_threshold.
Proof.
  intros H. rewrite <- RPow_abs.
  apply Rle_lt_trans with (1e76 ^ 4); [| apply ten_304_below_threshold].
  apply pow_incr. split; [apply Rabs_pos | exact H].
Qed.

Lemma pow2_in_range (x : R) : Rabs x <= 1e76 * 1e76 -> Rabs (x ^ 2) < overflow_threshold.
Proof.
  intros H. rewrite <- RPow_abs.
  apply Rle_lt_trans with (1e76 ^ 4); [| apply ten_304_below_threshold].
  replace (1e76 ^ 4) with ((1e76 * 1e76) ^ 2) by ring.
  apply pow_incr. split; [apply Rabs_pos | exact H].
Qed.

(** ** Facts about the solver *)

Section Solver.

Variables L h : R.

Lemma solve_raises : L < 2 * h ->
  solve_box_geometry L h = inl (ValueError L (2 * h)).
Proof.
  intros Hlt. unfold solve_box_geometry.
  destruct (Rlt_dec L (2 * h)) as [_ | Hn]; [reflexivity | contradiction].
Qed.

Lemma solve_overflows : 2 * h <= L -> overflow_threshold <= Rabs (L ^ 4) ->
  solve_box_geometry L h = inl OverflowError.
Proof.
  intros Hle Hov. unfold solve_box_geometry.
  destruct (Rlt_dec L (2 * h)) as [Hlt | _]; [lra |].
  now rewrite py_pow_raises.
Qed.

(** The solver returns on every sheet at least twice as long as the
    spacing is large, of either sign, and short enough for its fourth
    power. *)
Lemma solve_returns : Rabs h <= L / 2 -> L <= 1e76 ->
  solve_box_geometry L h = inr (L_planar_of L h, L_z_of L h, theta_of L h).
Proof.
  intros Hh Hmax.
  assert (HL0 : 0 <= L) by (pose proof (Rabs_pos h); lra).
  assert (HLa : Rabs L <= 1e76) by (rewrite Rabs_right; lra).
  assert (Hha : Rabs h <= 1e76) by lra.
  unfold solve_box_geometry.
  destruct (Rlt_dec L (2 * h)) as [Hlt | _].
  { pose proof (Rle_abs h). lra. }
  rewrite (py_pow_returns L 4) by (apply pow4_in_range; exact HLa). cbn [bind].
  rewrite (py_pow_returns (L * h) 2).
  2: { apply pow2_in_range. rewrite Rabs_mult.
       apply Rmult_le_compat; try apply Rabs_pos; assumption. }
  cbn [bind].
  rewrite (py_pow_returns L 2).
  2: { apply pow2_in_range. apply Rle_trans with (1 := HLa). lra. }
  reflexivity.
Qed.

(** What a returned triple is. *)
Lemma solve_inr_inv (t : R * R * R) :
  solve_box_geometry L h = inr t ->
  2 * h <= L /\ t = (L_planar_of L h, L_z_of L h, theta_of L h).
Proof.
  unfold solve_box_geometry.
  destruct (Rlt_dec L (2 * h)) as [Hlt | Hge]; [discriminate |].
  unfold py_pow.
  destruct (Rle_dec overflow_threshold (Rabs (L ^ 4))); [discriminate |].
  cbn [bind].
  destruct (Rle_dec overflow_threshold (Rabs ((L * h) ^ 2))); [discriminate |].
  cbn [bind].
  destruct (Rle_dec overflow_threshold (Rabs (L ^ 2))); [discriminate |].
  cbn [bind]. intros Heq. injection Heq as <-. split; [lra | reflexivity].
Qed.

Hypothesis h_nonneg : 0 <= h.
Hypothesis L_pos : 0 < L.
Hypothesis L_ge : 2 * h <= L.

Lemma radicand_nonneg : 0 <= L ^ 4 - 4 * (L * h) ^ 2.
Proof.
  replace (L ^ 4 - 4 * (L * h) ^ 2) with (L * L * ((L - 2 * h) * (L + 2 * h))) by ring.
  apply Rmult_le_pos; [nra |].
  apply Rmult_le_pos; lra.
Qed.

Lemma term_nonneg : 0 <= term_of L h.
Proof. apply sqrt_pos. Qed.

Lemma term_sqr : term_of L h * term_of L h = L ^ 4 - 4 * (L * h) ^ 2.
Proof. apply sqrt_sqrt, radicand_nonneg. Qed.

Lemma planar_radicand_pos : 0 < (L ^ 2 + term_of L h) / 2.
Proof.
  pose proof term_nonneg as Ht.
  assert (0 < L ^ 2) by nra. lra.
Qed.

Lemma L_planar_pos : 0 < L_planar_of L h.
Proof. apply sqrt_lt_R0, planar_radicand_pos. Qed.

Lemma L_planar_sqr :
  L_planar_of L h * L_planar_of L h = (L ^ 2 + term_of L h) / 2.
Proof. apply sqrt_sqrt. left. apply planar_radicand_pos. Qed.

(** [X = L_planar^2] is a root of [X^2 - L^2 X + (L h)^2 = 0]. *)
Lemma planar_sqr_root :
  let X := (L ^ 2 + term_of L h) / 2 in
  X * X - L ^ 2 * X + (L * h) ^ 2 = 0.
Proof.
  intros X. unfold X. pose proof term_sqr as Ht. nra.
Qed.

Lemma closure : L_planar_of L h ^ 2 + L_z_of L h ^ 2 = L ^ 2.
Proof.
  pose proof L_planar_pos as Hp. pose proof L_planar_sqr as Hs.
  pose proof planar_sqr_root as Hr. cbv zeta in Hr.
  unfold L_z_of. set (P := L_planar_of L h) in *. set (t := term_of L h) in *.
  assert (HP : P <> 0) by lra.
  assert (HX : (L ^ 2 + t) / 2 <> 0) by (rewrite <- Hs; nra).
  replace (P ^ 2 + (L * h / P) ^ 2) with (P * P + (L * h) ^ 2 / (P * P)) by (field; exact HP).
  rewrite Hs. apply (Rmult_eq_reg_r ((L ^ 2 + t) / 2)); [| exact HX].
  transitivity ((L ^ 2 + t) / 2 * ((L ^ 2 + t) / 2) + (L * h) ^ 2); [field; lra |].
  nra.
Qed.

(** The slope [L_z / L_planar] is [L h / L_planar^2], between 0 and 1. *)
Lemma slope_eq :
  L_z_of L h / L_planar_of L h = (L * h) / ((L ^ 2 + term_of L h) / 2).
Proof.
  pose proof L_planar_pos as Hp. rewrite <- L_planar_sqr.
  unfold L_z_of. field. lra.
Qed.

Lemma slope_le_1 : L_z_of L h / L_planar_of L h <= 1.
Proof.
  rewrite slope_eq. pose proof planar_radicand_pos as Hx. pose proof term_nonneg as Ht.
  apply (Rmult_le_reg_r ((L ^ 2 + term_of L h) / 2)); [exact Hx |].
  replace (L * h / ((L ^ 2 + term_of L h) / 2) * ((L ^ 2 + term_of L h) / 2))
    with (L * h) by (field; lra).
  nra.
Qed.

Lemma slope_eq_1_iff : L_z_of L h / L_planar_of L h = 1 <-> L = 2 * h.
Proof.
  rewrite slope_eq. pose proof planar_radicand_pos as Hx. pose proof term_nonneg as Ht.
  split.
  - intros H1.
    assert (H2 : L * h = (L ^ 2 + term_of L h) / 2).
    { rewrite <- (Rmult_1_l ((L ^ 2 + term_of L h) / 2)), <- H1. field. lra. }
    assert (L * (L - 2 * h) + term_of L h = 0) by lra.
    assert (0 <= L * (L - 2 * h)) by (apply Rmult_le_pos; lra).
    assert (L * (L - 2 * h) = 0) by lra.
    destruct (Rmult_integral _ _ H3); lra.
  - intros HL.
    assert (Hz : term_of L h = 0).
    { unfold term_of. replace (L ^ 4 - 4 * (L * h) ^ 2) with 0 by (rewrite HL; ring).
      apply sqrt_0. }
    rewrite Hz. rewrite HL. field. lra.
Qed.

End Solver.

(** The hypotheses of the statements about values, in the form
    [solve_returns] takes them. *)
Lemma valid_returns (L h : R) : 0 <= h -> 2 * h <= L -> L <= 1e76 ->
  solve_box_geometry L h = inr (L_planar_of L h, L_z_of L h, theta_of L h).
Proof.
  intros Hh HL Hmax. apply solve_returns; [rewrite Rabs_right; lra | exact Hmax].
Qed.

(** ** The tilt angle, in exact arithmetic *)

Lemma theta_pos (L h : R) : 0 < h -> 2 * h <= L -> 0 < theta_of L h.
Proof.
  intros Hh HL. unfold theta_of. rewrite <- atan_0. apply atan_increasing.
  assert (Hp : 0 < L_planar_of L h) by (apply L_planar_pos; lra).
  unfold L_z_of. apply Rdiv_lt_0_compat; [| exact Hp].
  apply Rdiv_lt_0_compat; [nra | exact Hp].
Qed.

Lemma theta_le_quarter (L h : R) : 0 <= h -> 0 < L -> 2 * h <= L ->
  theta_of L h <= PI / 4.
Proof.
  intros Hh HL0 HL. unfold theta_of. rewrite <- atan_1.
  assert (Hs : L_z_of L h / L_planar_of L h <= 1) by (apply slope_le_1; assumption).
  destruct Hs as [Hlt | Heq].
  - left. now apply atan_increasing.
  - right. now rewrite Heq.
Qed.

Lemma L_z_lt_L_planar (L h : R) : 0 < h -> 2 * h < L ->
  L_z_of L h < L_planar_of L h.
Proof.
  intros Hh HL.
  assert (Hp : 0 < L_planar_of L h) by (apply L_planar_pos; lra).
  assert (Hs : L_z_of L h / L_planar_of L h < 1).
  { assert (Hle : L_z_of L h / L_planar_of L h <= 1) by (apply slope_le_1; lra).
    destruct Hle as [Hlt | Heq]; [exact Hlt |].
    apply slope_eq_1_iff in Heq; lra. }
  apply (Rmult_lt_compat_r (L_planar_of L h)) in Hs; [| exact Hp].
  replace (L_z_of L h / L_planar_of L h * L_planar_of L h) with (L_z_of L h) in Hs
    by (field; lra).
  lra.
Qed.

Section SolverGeometry.

Variables L h : R.
Hypothesis h_pos : 0 < h.
Hypothesis L_ge : 2 * h <= L.

Lemma Lp_pos : 0 < L_planar_of L h.
Proof. apply L_planar_pos; lra. Qed.

Lemma Lz_pos : 0 < L_z_of L h.
Proof.
  unfold L_z_of. apply Rdiv_lt_0_compat; [nra | apply Lp_pos].
Qed.

Lemma hypotenuse : L_planar_of L h ^ 2 + L_z_of L h ^ 2 = L ^ 2.
Proof. apply closure; lra. Qed.

Lemma sqrt_one_plus_slope :
  sqrt (1 + (L_z_of L h / L_planar_of L h)²) = L / L_planar_of L h.
Proof.
  pose proof Lp_pos as Hp. pose proof hypotenuse as Hc.
  assert (HLp : 0 <= L / L_planar_of L h)
    by (apply Rmult_le_pos; [lra | left; now apply Rinv_0_lt_compat]).
  replace (1 + (L_z_of L h / L_planar_of L h)²)
    with (L / L_planar_of L h * (L / L_planar_of L h)).
  - now apply sqrt_square.
  - unfold Rsqr. apply (Rmult_eq_reg_r (L_planar_of L h * L_planar_of L h)); [| nra].
    transitivity (L ^ 2); [field; lra |].
    rewrite <- Hc. field. lra.
Qed.

Lemma cos_theta : cos (theta_of L h) = L_planar_of L h / L.
Proof.
  unfold theta_of. rewrite cos_atan, sqrt_one_plus_slope.
  pose proof Lp_pos. field. lra.
Qed.

Lemma sin_theta : sin (theta_of L h) = L_z_of L h / L.
Proof.
  unfold theta_of. rewrite sin_atan, sqrt_one_plus_slope.
  pose proof Lp_pos. field. lra.
Qed.

Lemma area : L_planar_of L h * L_z_of L h = L * h.
Proof.
  pose proof Lp_pos. unfold L_z_of. field. lra.
Qed.

End SolverGeometry.

(** ** Facts about the structure operations *)

Lemma combine_split_map {A B C : Type} (f : A -> B) (g : A -> C) (l : list A) :
  combine (map f l) (map g l) = map (fun x => (f x, g x)) l.
Proof.
  induction l as [| x l IH]; simpl; [reflexivity | now rewrite IH].
Qed.

Lemma map_const_seq {A : Type} (x : A) (k n : nat) :
  map (fun _ : nat => x) (seq k n) = repeat x n.
Proof.
  revert k. induction n as [| n IH]; intros k; cbn; [reflexivity | now rewrite IH].
Qed.

Lemma prod3_neq_0 (x y z : R) : x <> 0 -> y <> 0 -> z <> 0 -> x * y * z <> 0.
Proof.
  intros Hx Hy Hz. repeat apply Rmult_integral_contrapositive_currified; assumption.
Qed.

Lemma not_singular (l : Lattice.t) :
  Lattice.xx l * Lattice.yy l * Lattice.zz l <> 0 -> Lattice.singular l = false.
Proof.
  intros H. unfold Lattice.singular.
  destruct (Req_dec_T (Lattice.xx l * Lattice.yy l * Lattice.zz l) 0);
    [contradiction | reflexivity].
Qed.


Lemma init_returns (l : Lattice.t) (sp : list string) (coords : list vec3)
    (u c : bool) :
  length sp = length coords ->
  (c && Lattice.singular l)%bool = false ->
  Structure.init l sp coords u c =
  inr (Structure.mk l
         (map (fun sc : string * vec3 =>
                 let f := if c then Lattice.get_fractional_coords l (snd sc)
                          else snd sc in
                 Structure.mk_site (fst sc) (if u then Structure.wrap f else f))
              (combine sp coords))).
Proof.
  intros Hlen Hns. unfold Structure.init.
  rewrite Hlen, Nat.eqb_refl, Hns. reflexivity.
Qed.

Lemma copy_returns (s : Structure.t) : Structure.copy s = inr s.
Proof.
  unfold Structure.copy. rewrite init_returns.
  - unfold Structure.species, Structure.frac_coords.
    rewrite combine_split_map, map_map. cbn.
    destruct s as [l ss]. cbn. f_equal. f_equal.
    induction ss as [| [sp f] ss IH]; cbn; [reflexivity | now rewrite IH].
  - unfold Structure.species, Structure.frac_coords. now rewrite !length_map.
  - reflexivity.
Qed.

Lemma get_rectangular_mos2_returns (a_param : R) :
  get_rectangular_mos2 a_param 3.12 20 = inr (flat_cell a_param).
Proof.
  unfold get_rectangular_mos2. cbv zeta. rewrite init_returns by reflexivity.
  reflexivity.
Qed.

Lemma supercell_length (s : Structure.t) (N : nat) :
  length (Structure.sites (Structure.supercell s N)) =
  (length (Structure.sites s) * N)%nat.
Proof.
  unfold Structure.supercell. cbn.
  induction (Structure.sites s) as [| st ss IH]; cbn; [reflexivity |].
  rewrite length_app, length_map, length_seq, IH. reflexivity.
Qed.

Lemma sqrt3_sqr : sqrt 3 * sqrt 3 = 3.
Proof. apply sqrt_sqrt. lra. Qed.

Lemma sqrt3_pos : 0 < sqrt 3.
Proof. apply sqrt_lt_R0. lra. Qed.

(** For [N >= 1] and a lattice constant other than 0 the replication
    returns the replicated sheet; for [N = 0] it raises. *)
Lemma make_supercell_returns (N : nat) (a : R) :
  (1 <= N)%nat -> a <> 0 ->
  Structure.make_supercell (flat_cell a) N = inr (replicated_sheet N a).
Proof.
  intros HN Ha. unfold Structure.make_supercell. rewrite not_singular; [reflexivity |].
  cbn [Structure.supercell Structure.lattice flat_cell Lattice.from_parameters
       Lattice.xx Lattice.yy Lattice.zz].
  assert (0 < INR N) by (apply lt_0_INR; lia). pose proof sqrt3_pos.
  apply prod3_neq_0; [| | lra].
  - apply Rmult_integral_contrapositive_currified; lra.
  - apply Rmult_integral_contrapositive_currified; lra.
Qed.


Lemma centered_coords_length (s : Structure.t) :
  length (centered_coords s) = length (Structure.sites s).
Proof.
  unfold centered_coords, Structure.cart_coords, Structure.frac_coords.
  now rewrite !length_map.
Qed.

Lemma rotated_coords_length (theta : R) (coords : list vec3) :
  length (rotated_coords theta coords) = length coords.
Proof. unfold rotated_coords, np_dot. now rewrite length_map. Qed.

Lemma tilted_positions_length (N : nat) (h a : R) :
  length (tilted_positions N h a) =
  length (Structure.species (replicated_sheet N a)).
Proof.
  unfold tilted_positions, Structure.species.
  now rewrite rotated_coords_length, centered_coords_length, length_map.
Qed.

(** ** What [create_tilted_cell] computes *)

Lemma sheet_lengths (N : nat) (a : R) : 0 < a ->
  Lattice.a (Structure.lattice (replicated_sheet N a)) = INR N * a /\
  Lattice.b (Structure.lattice (replicated_sheet N a)) = a * sqrt 3.
Proof.
  intros Ha. unfold Lattice.a, Lattice.b.
  cbn [replicated_sheet Structure.supercell Structure.lattice flat_cell
       Lattice.from_parameters Lattice.xx Lattice.yy].
  pose proof (pos_INR N). pose proof sqrt3_pos.
  split; apply Rabs_right; nra.
Qed.

Lemma valid_sheet (N : nat) (h a : R) :
  0 < h -> 2 * h <= INR N * a -> (1 <= N)%nat /\ 0 < INR N /\ 0 < a.
Proof.
  intros Hh HL. destruct N as [| n].
  - simpl in HL. lra.
  - assert (HN : 0 < INR (S n)) by (apply lt_0_INR; lia).
    repeat split; [lia | exact HN |].
    destruct (Rlt_le_dec 0 a) as [Ha | Ha]; [exact Ha | nra].
Qed.

Lemma create_tilted_cell_raises (N : nat) (h a : R) :
  (1 <= N)%nat -> 0 < a -> INR N * a < 2 * h ->
  create_tilted_cell N h a = inl (ValueError (INR N * a) (2 * h)).
Proof.
  intros HN Ha Hlt. unfold create_tilted_cell.
  rewrite get_rectangular_mos2_returns. cbn [bind].
  rewrite make_supercell_returns by (assumption || lra). cbn [bind].
  destruct (sheet_lengths N a Ha) as [-> _].
  rewrite solve_raises by exact Hlt. reflexivity.
Qed.

Lemma create_tilted_cell_returns (N : nat) (h a : R) :
  0 < h -> 2 * h <= INR N * a -> INR N * a <= 1e76 ->
  create_tilted_cell N h a =
  inr (tilted_cell N h a, theta_of (INR N * a) h).
Proof.
  intros Hh Hle Hmax.
  destruct (valid_sheet N h a Hh Hle) as (HN & HN0 & Ha).
  unfold create_tilted_cell.
  rewrite get_rectangular_mos2_returns. cbn [bind].
  rewrite make_supercell_returns by (assumption || lra). cbn [bind].
  destruct (sheet_lengths N a Ha) as [-> ->].
  rewrite valid_returns by lra. cbn [bind].
  change (rotated_coords (theta_of (INR N * a) h) (centered_coords (replicated_sheet N a)))
    with (tilted_positions N h a).
  change (Lattice.from_parameters (L_planar_of (INR N * a) h) (a * sqrt 3)
            (L_z_of (INR N * a) h) 90 90 90)
    with (tilted_lattice N h a).
  rewrite init_returns.
  - cbn [bind]. rewrite copy_returns. cbn [bind]. reflexivity.
  - symmetry. apply tilted_positions_length.
  - cbn [andb]. apply not_singular.
    unfold tilted_lattice, Lattice.from_parameters.
    cbn [Lattice.xx Lattice.yy Lattice.zz].
    pose proof (Lp_pos (INR N * a) h Hh Hle). pose proof (Lz_pos (INR N * a) h Hh Hle).
    pose proof sqrt3_pos.
    apply prod3_neq_0; nra.
Qed.

(** ** The rotation *)

(** One row of [np.dot(cart_coords, rotation_matrix.T)]. *)
Lemma row_dot_rotation (theta : R) (p : vec3) :
  row_dot p (transpose (rotation_matrix theta)) =
  (cos theta * vx p - sin theta * vz p,
   vy p,
   sin theta * vx p + cos theta * vz p).
Proof.
  destruct p as [[x y] z]. unfold rotation_matrix, transpose, row_dot, vx, vy, vz.
  cbn. f_equal; [f_equal |]; ring.
Qed.

Lemma rotated_coords_map (theta : R) (coords : list vec3) :
  rotated_coords theta coords =
  map (fun p => (cos theta * vx p - sin theta * vz p,
                 vy p,
                 sin theta * vx p + cos theta * vz p)) coords.
Proof.
  unfold rotated_coords, np_dot. apply map_ext. intros p. apply row_dot_rotation.
Qed.


(** ** The tilted cell *)

Lemma map_snd_combine_eq {A B : Type} (l : list A) (l' : list B) :
  length l = length l' -> map snd (combine l l') = l'.
Proof.
  revert l'. induction l as [| x l IH]; intros [| y l'] Hlen; cbn in *;
    try discriminate; [reflexivity |].
  f_equal. apply IH. now injection Hlen.
Qed.

Lemma map_fst_combine_eq {A B : Type} (l : list A) (l' : list B) :
  length l = length l' -> map fst (combine l l') = l.
Proof.
  revert l'. induction l as [| x l IH]; intros [| y l'] Hlen; cbn in *;
    try discriminate; [reflexivity |].
  f_equal. apply IH. now injection Hlen.
Qed.

Lemma tilted_cell_species (N : nat) (h a : R) :
  Structure.species (tilted_cell N h a) =
  Structure.species (replicated_sheet N a).
Proof.
  unfold tilted_cell. cbv zeta. unfold Structure.species at 1. cbn [Structure.sites].
  rewrite map_map. cbn [Structure.site_species].
  change (fun x : string * vec3 => fst x) with (@fst string vec3).
  apply map_fst_combine_eq. symmetry. apply tilted_positions_length.
Qed.

Lemma tilted_cell_frac_coords (N : nat) (h a : R) :
  Structure.frac_coords (tilted_cell N h a) =
  map (Lattice.get_fractional_coords (tilted_lattice N h a))
      (tilted_positions N h a).
Proof.
  unfold tilted_cell. cbv zeta. unfold Structure.frac_coords at 1. cbn [Structure.sites].
  rewrite map_map. cbn [Structure.site_frac].
  rewrite <- (map_snd_combine_eq (Structure.species (replicated_sheet N a))
                                 (tilted_positions N h a)) at 2
    by (symmetry; apply tilted_positions_length).
  now rewrite map_map.
Qed.

Lemma replicated_sheet_length (N : nat) (a : R) :
  length (Structure.sites (replicated_sheet N a)) = (6 * N)%nat.
Proof. unfold replicated_sheet. now rewrite supercell_length. Qed.

(** ** Distances *)



Lemma Rdiv_neg_pos (x y : R) : x < 0 -> 0 < y -> x / y < 0.
Proof.
  intros Hx Hy. unfold Rdiv.
  assert (0 < / y) by now apply Rinv_0_lt_compat.
  nra.
Qed.

Lemma frac_part_id (x : R) : 0 <= x < 1 -> frac_part x = x.
Proof.
  intros [H0 H1]. unfold frac_part.
  rewrite <- (Int_part_spec x 0%Z); [simpl; lra | simpl; lra].
Qed.

Lemma wrap_in_unit_cell (f : vec3) : in_unit_cell (Structure.wrap f).
Proof.
  unfold in_unit_cell, in_unit_interval, Structure.wrap, vx, vy, vz. cbn [fst snd].
  pose proof (base_fp (fst (fst f))). pose proof (base_fp (snd (fst f))).
  pose proof (base_fp (snd f)). lra.
Qed.

Lemma wrap_idempotent (f : vec3) :
  Structure.wrap (Structure.wrap f) = Structure.wrap f.
Proof.
  destruct (wrap_in_unit_cell f) as (Hx & Hy & Hz).
  unfold Structure.wrap at 1.
  rewrite (frac_part_id _ Hx), (frac_part_id _ Hy), (frac_part_id _ Hz).
  reflexivity.
Qed.

(** With [to_unit_cell] set, the constructor does put every atom in the
    unit cell. *)
Lemma init_to_unit_cell (l : Lattice.t) (sp : list string) (coords : list vec3)
    (c : bool) (s : Structure.t) :
  Structure.init l sp coords true c = inr s ->
  Forall in_unit_cell (Structure.frac_coords s).
Proof.
  unfold Structure.init. destruct (Nat.eqb (length sp) (length coords)); [| discriminate].
  destruct (c && Lattice.singular l)%bool; [discriminate |].
  intros Hs. injection Hs as <-. unfold Structure.frac_coords. cbn [Structure.sites].
  rewrite map_map. apply Forall_map, Forall_forall. intros sc _.
  cbn [Structure.site_frac]. apply wrap_in_unit_cell.
Qed.

(** ** The centre of the replicated sheet *)

Lemma np_sum_app (l1 l2 : list R) : np_sum (l1 ++ l2) = np_sum l1 + np_sum l2.
Proof.
  unfold np_sum. induction l1 as [| x l1 IH]; cbn [app fold_right]; [ring | rewrite IH; ring].
Qed.

Lemma np_sum_repeat (x : R) (n : nat) : np_sum (repeat x n) = INR n * x.
Proof.
  induction n as [| n IH]; [unfold np_sum; cbn; ring |].
  rewrite S_INR. change (np_sum (repeat x (S n))) with (x + np_sum (repeat x n)).
  rewrite IH. ring.
Qed.

Lemma supercell_cart_z (s : Structure.t) (N : nat) :
  map vz (Structure.cart_coords (Structure.supercell s N)) =
  flat_map (fun st => repeat (frac_part (vz (Structure.site_frac st)) *
                              Lattice.zz (Structure.lattice s)) N)
           (Structure.sites s).
Proof.
  unfold Structure.cart_coords, Structure.frac_coords, Structure.supercell.
  cbn [Structure.sites Structure.lattice].
  induction (Structure.sites s) as [| st ss IH]; [reflexivity |].
  cbn [flat_map]. rewrite !map_app, IH. f_equal.
  rewrite !map_map. clear.
  rewrite (map_ext _ (fun _ : nat => frac_part (vz (Structure.site_frac st)) *
                                     Lattice.zz (Structure.lattice s)))
    by (intros i; reflexivity).
  apply map_const_seq.
Qed.

Lemma np_sum_flat_repeat {A : Type} (g : A -> R) (N : nat) (l : list A) :
  np_sum (flat_map (fun x => repeat (g x) N) l) = INR N * np_sum (map g l).
Proof.
  induction l as [| x l IH]; cbn [flat_map map]; [unfold np_sum; cbn; ring |].
  rewrite np_sum_app, np_sum_repeat, IH. unfold np_sum. cbn [fold_right]. ring.
Qed.

Lemma replicated_sheet_z_mean (N : nat) (a : R) : (1 <= N)%nat ->
  np_mean (map vz (Structure.cart_coords (replicated_sheet N a))) = 10.
Proof.
  intros HN. unfold np_mean.
  rewrite length_map.
  replace (length (Structure.cart_coords (replicated_sheet N a))) with (6 * N)%nat
    by (unfold Structure.cart_coords, Structure.frac_coords;
        now rewrite !length_map, replicated_sheet_length).
  unfold replicated_sheet. rewrite supercell_cart_z, np_sum_flat_repeat.
  assert (HN0 : 0 < INR N) by (apply lt_0_INR; lia).
  rewrite mult_INR. cbn [flat_cell Structure.sites Structure.lattice map
    Structure.site_frac vz snd Lattice.zz Lattice.from_parameters np_sum fold_right].
  rewrite !frac_part_id by lra.
  match goal with
  | |- INR N * ?S / _ = _ => replace S with 60 by lra
  end.
  replace (INR 6) with 6 by (simpl; lra). field. lra.
Qed.

(** ** An atom left outside the unit cell

    The constructor is called without [to_unit_cell]: the first image of
    the lower sulphur atom at the origin lies 1.56 below the mid-plane and
    on the rotation axis, so the rotation leaves it below the new box. *)
Lemma tilted_cell_atom_below (N : nat) (h a : R) :
  (1 <= N)%nat -> 0 < h -> 2 * h <= INR N * a ->
  exists f, In f (Structure.frac_coords (tilted_cell N h a)) /\ vz f < 0.
Proof.
  intros HN Hh HL.
  set (L := INR N * a) in *.
  set (theta := theta_of L h).
  assert (Hth : 0 < theta <= PI / 4)
    by (split; [apply theta_pos | apply theta_le_quarter]; lra).
  assert (Hcos : 0 < cos theta).
  { pose proof PI_RGT_0. apply cos_gt_0; lra. }
  assert (HLz : 0 < L_z_of L h).
  { unfold L_z_of. assert (0 < L_planar_of L h) by (apply L_planar_pos; lra).
    apply Rdiv_lt_0_compat; [nra | assumption]. }
  set (st := Structure.mk_site "S"
               (Structure.wrap ((vx (0, 0, 0.5 - 3.12 / 20 / 2) + INR 0) / INR N,
                                vy (0, 0, 0.5 - 3.12 / 20 / 2),
                                vz (0, 0, 0.5 - 3.12 / 20 / 2)))).
  assert (Hst : In st (Structure.sites (replicated_sheet N a))).
  { unfold replicated_sheet, Structure.supercell. cbn [Structure.sites].
    apply in_flat_map.
    exists (Structure.mk_site "S" (0, 0, 0.5 - 3.12 / 20 / 2)). split.
    - cbn. tauto.
    - apply in_map_iff. exists 0%nat. split; [reflexivity |].
      apply in_seq. lia. }
  set (z_mean := np_mean (map vz (Structure.cart_coords (replicated_sheet N a)))).
  set (shift := fun p : vec3 => (vx p, vy p, vz p - z_mean)).
  set (rotate := fun p : vec3 => row_dot p (transpose (rotation_matrix theta))).
  set (nl := tilted_lattice N h a).
  exists (Lattice.get_fractional_coords nl
            (rotate (shift (Lattice.get_cartesian_coords
                              (Structure.lattice (replicated_sheet N a))
                              (Structure.site_frac st))))).
  split.
  - rewrite tilted_cell_frac_coords. apply in_map.
    unfold tilted_positions, rotated_coords, np_dot.
    apply (in_map rotate). unfold centered_coords.
    apply (in_map shift). unfold Structure.cart_coords. apply in_map.
    unfold Structure.frac_coords. now apply in_map.
  - assert (Hz : z_mean = 10) by (apply replicated_sheet_z_mean; exact HN).
    unfold rotate. rewrite row_dot_rotation.
    unfold shift, st, nl, tilted_lattice, Lattice.get_fractional_coords,
      Lattice.get_cartesian_coords, Structure.wrap, vx, vy, vz.
    cbn [fst snd Structure.site_frac Lattice.zz Lattice.xx Lattice.from_parameters
         replicated_sheet Structure.supercell Structure.lattice flat_cell INR].
    rewrite Hz. fold L.
    replace ((0 + 0) / INR N) with 0 by (unfold Rdiv; ring).
    rewrite fp_R0, (frac_part_id (0.5 - 3.12 / 20 / 2)) by lra.
    fold theta.
    replace (sin theta * (0 * L)) with 0 by ring.
    replace ((0.5 - 3.12 / 20 / 2) * 20 - 10) with (- 1.56) by lra.
    apply Rdiv_neg_pos; [nra | exact HLz].
Qed.

(** C5, on the program's own parameters [N = 10], [h_spacing = 15],
    [a_param = 3.18]: the call returns a cell with an atom whose third
    fractional coordinate is negative, so not every atom is in [[0, 1)]. *)
Theorem create_tilted_cell_not_wrapped :
  exists cell theta,
    create_tilted_cell 10 15 3.18 = inr (cell, theta) /\
    exists f, In f (Structure.frac_coords cell) /\ vz f < 0 /\ ~ in_unit_cell f.
Proof.
  assert (HL : 2 * 15 <= INR 10 * 3.18) by (simpl; lra).
  exists (tilted_cell 10 15 3.18), (theta_of (INR 10 * 3.18) 15).
  split; [apply create_tilted_cell_returns; simpl; lra |].
  destruct (tilted_cell_atom_below 10 15 3.18) as (f & Hin & Hneg); [lia | lra | exact HL |].
  exists f. split; [exact Hin |]. split; [exact Hneg |].
  unfold in_unit_cell, in_unit_interval. lra.
Qed.

(** ** The centring *)

Lemma np_sum_shift (m : R) (l : list R) :
  np_sum (map (fun z => z - m) l) = np_sum l - INR (length l) * m.
Proof.
  unfold np_sum. induction l as [| z l IH]; [cbn; ring |].
  cbn [map fold_right]. rewrite IH.
  change (length (z :: l)) with (S (length l)). rewrite S_INR. ring.
Qed.

(** X9: lines 85-86 centre the strip: on a structure with at least one
    atom the third column of the centred positions has mean zero, and the
    first two columns are those of [cart_coords]. *)
Theorem centered_coords_mean_zero (s : Structure.t)
    (Hne : Structure.sites s <> []) :
  np_mean (map vz (centered_coords s)) = 0 /\
  map vx (centered_coords s) = map vx (Structure.cart_coords s) /\
  map vy (centered_coords s) = map vy (Structure.cart_coords s).
Proof.
  unfold centered_coords. cbv zeta.
  set (cart := Structure.cart_coords s).
  assert (Hlen : 0 < INR (length (map vz cart))).
  { apply lt_0_INR. unfold cart, Structure.cart_coords, Structure.frac_coords.
    rewrite !length_map. destruct (Structure.sites s); [contradiction | cbn; lia]. }
  set (m := np_mean (map vz cart)).
  repeat split.
  - rewrite map_map. cbn [vz snd].
    rewrite <- (map_map vz (fun z => z - m)).
    unfold np_mean at 1. rewrite np_sum_shift.
    unfold m, np_mean. rewrite !length_map. rewrite length_map in Hlen.
    field. lra.
  - rewrite map_map. reflexivity.
  - rewrite map_map. reflexivity.
Qed.

Lemma centered_coords_mean_zero_witness :
  Structure.sites (flat_cell 3.18) <> [] /\
  np_mean (map vz (centered_coords (flat_cell 3.18))) = 0 /\
  map vx (centered_coords (flat_cell 3.18)) =
    map vx (Structure.cart_coords (flat_cell 3.18)) /\
  map vy (centered_coords (flat_cell 3.18)) =
    map vy (Structure.cart_coords (flat_cell 3.18)).
Proof.
  split; [discriminate |].
  apply (centered_coords_mean_zero (flat_cell 3.18)). discriminate.
Defined.

(** ** Rotations compose *)

Lemma rotated_coords_zero (coords : list vec3) : rotated_coords 0 coords = coords.
Proof.
  rewrite rotated_coords_map, cos_0, sin_0.
  rewrite <- (map_id coords) at 2. apply map_ext.
  intros [[x y] z]. unfold vx, vy, vz. cbn [fst snd]. f_equal; [f_equal |]; ring.
Qed.

(** X10: rotating by [t1] and then by [t2] is rotating by [t1 + t2]; in
    particular the rotation by [- t] undoes the rotation by [t]. *)
Theorem rotated_coords_compose (t1 t2 : R) (coords : list vec3) :
  rotated_coords t2 (rotated_coords t1 coords) = rotated_coords (t1 + t2) coords /\
  rotated_coords (- t1) (rotated_coords t1 coords) = coords.
Proof.
  assert (Hc : forall u v, rotated_coords v (rotated_coords u coords) =
                           rotated_coords (u + v) coords).
  { intros u v. rewrite !rotated_coords_map, map_map. apply map_ext.
    intros [[x y] z]. unfold vx, vy, vz. cbn [fst snd].
    rewrite cos_plus, sin_plus. f_equal; [f_equal |]; ring. }
  split; [apply Hc |].
  rewrite Hc. replace (t1 + - t1) with 0 by ring. apply rotated_coords_zero.
Qed.

(** ** The flat cell *)

(** X11: for a lattice constant [a >= 0] and a vacuum [v <> 0],
    [get_rectangular_mos2] returns the six atoms Mo, Mo, S, S, S, S; the
    two Mo atoms lie in the mid-plane [z = v / 2] at distance [a] from each
    other, and over each of them the two S atoms lie [t / 2] below and
    above that plane, [t] apart. *)
Theorem get_rectangular_mos2_geometry (a t v : R) (Ha : 0 <= a) (Hv : v <> 0) :
  exists s,
    get_rectangular_mos2 a t v = inr s /\
    Structure.species s = ["Mo"; "Mo"; "S"; "S"; "S"; "S"]%string /\
    Structure.cart_coords s =
      [ (0, 0, v / 2);
        (a / 2, a * sqrt 3 / 2, v / 2);
        (0, 0, v / 2 - t / 2);
        (0, 0, v / 2 + t / 2);
        (a / 2, a * sqrt 3 / 2, v / 2 - t / 2);
        (a / 2, a * sqrt 3 / 2, v / 2 + t / 2) ] /\
    dist (0, 0, v / 2) (a / 2, a * sqrt 3 / 2, v / 2) = a /\
    dist (0, 0, v / 2 - t / 2) (0, 0, v / 2 + t / 2) = Rabs t.
Proof.
  unfold get_rectangular_mos2. cbv zeta. rewrite init_returns by reflexivity.
  eexists. split; [reflexivity |]. split; [reflexivity |].
  split; [| split].
  - unfold Structure.cart_coords, Structure.frac_coords, Lattice.get_cartesian_coords,
      Lattice.from_parameters, vx, vy, vz.
    cbn [map combine fst snd Structure.sites Structure.site_frac Structure.lattice
         Lattice.xx Lattice.yy Lattice.zz].
    replace 0.5 with (/ 2) by lra.
    repeat (f_equal; try (field; exact Hv); try field).
  - unfold dist, vx, vy, vz. cbn [fst snd].
    pose proof sqrt3_sqr as H3.
    replace ((0 - a / 2) ^ 2 + (0 - a * sqrt 3 / 2) ^ 2 + (v / 2 - v / 2) ^ 2)
      with (a * a) by (field_simplify; nra).
    now apply sqrt_square.
  - unfold dist, vx, vy, vz. cbn [fst snd].
    replace ((0 - 0) ^ 2 + (0 - 0) ^ 2 + (v / 2 - t / 2 - (v / 2 + t / 2)) ^ 2)
      with (t²) by (unfold Rsqr; field).
    apply sqrt_Rsqr_abs.
Qed.

Lemma get_rectangular_mos2_geometry_witness :
  0 <= 3.18 /\ 20 <> 0 /\
  exists s,
    get_rectangular_mos2 3.18 3.12 20 = inr s /\
    Structure.species s = ["Mo"; "Mo"; "S"; "S"; "S"; "S"]%string /\
    Structure.cart_coords s =
      [ (0, 0, 20 / 2);
        (3.18 / 2, 3.18 * sqrt 3 / 2, 20 / 2);
        (0, 0, 20 / 2 - 3.12 / 2);
        (0, 0, 20 / 2 + 3.12 / 2);
        (3.18 / 2, 3.18 * sqrt 3 / 2, 20 / 2 - 3.12 / 2);
        (3.18 / 2, 3.18 * sqrt 3 / 2, 20 / 2 + 3.12 / 2) ] /\
    dist (0, 0, 20 / 2) (3.18 / 2, 3.18 * sqrt 3 / 2, 20 / 2) = 3.18 /\
    dist (0, 0, 20 / 2 - 3.12 / 2) (0, 0, 20 / 2 + 3.12 / 2) = Rabs 3.12.
Proof.
  split; [lra |]. split; [lra |].
  apply (get_rectangular_mos2_geometry 3.18 3.12 20); lra.
Defined.

(** ** The atoms of the replicated sheet *)

Lemma replicated_sheet_site (N : nat) (a : R) (st : Structure.site) :
  In st (Structure.sites (replicated_sheet N a)) ->
  in_unit_cell (Structure.site_frac st) /\
  ((Structure.site_species st = "Mo"%string /\
    vz (Structure.site_frac st) = 0.5) \/
   (Structure.site_species st = "S"%string /\
    (vz (Structure.site_frac st) = 0.422 \/ vz (Structure.site_frac st) = 0.578))).
Proof.
  unfold replicated_sheet, Structure.supercell. cbn [Structure.sites].
  intros Hin. apply in_flat_map in Hin as (st0 & Hst0 & Him).
  apply in_map_iff in Him as (i & <- & _).
  cbn [Structure.site_frac Structure.site_species].
  split; [apply wrap_in_unit_cell |].
  unfold Structure.wrap, vz at 1 3 5. cbn [snd].
  cbn [flat_cell Structure.sites In] in Hst0.
  destruct Hst0 as [<- | [<- | [<- | [<- | [<- | [<- | []]]]]]];
    cbn [Structure.site_frac Structure.site_species vz snd];
    rewrite frac_part_id by lra;
    [left | left | right | right | right | right];
    (split; [reflexivity | lra]).
Qed.

Lemma centered_coords_sheet (N : nat) (a : R) : (1 <= N)%nat ->
  centered_coords (replicated_sheet N a) =
  map (fun st => (vx (Structure.site_frac st) * (INR N * a),
                  vy (Structure.site_frac st) * (a * sqrt 3),
                  vz (Structure.site_frac st) * 20 - 10))
      (Structure.sites (replicated_sheet N a)).
Proof.
  intros HN. unfold centered_coords. cbv zeta.
  rewrite replicated_sheet_z_mean by exact HN.
  unfold Structure.cart_coords, Structure.frac_coords. rewrite !map_map.
  apply map_ext. intros st. reflexivity.
Qed.

(** X12: in the replicated sheet, for [N >= 1], the centring puts every
    Mo atom at height 0 and every S atom at height [-1.56] or [1.56]:
    the slab keeps its thickness 3.12 around the rotation axis. *)
Theorem centered_coords_heights (N : nat) (a : R) (i : nat) (st : Structure.site)
    (HN : (1 <= N)%nat)
    (Hst : nth_error (Structure.sites (replicated_sheet N a)) i = Some st) :
  exists p,
    nth_error (centered_coords (replicated_sheet N a)) i = Some p /\
    ((Structure.site_species st = "Mo"%string /\ vz p = 0) \/
     (Structure.site_species st = "S"%string /\ (vz p = - 1.56 \/ vz p = 1.56))).
Proof.
  rewrite centered_coords_sheet by exact HN.
  rewrite nth_error_map, Hst. cbn [option_map].
  eexists. split; [reflexivity |]. cbn [vz snd].
  destruct (replicated_sheet_site N a st (nth_error_In _ _ Hst))
    as (_ & [(Hsp & Hz) | (Hsp & [Hz | Hz])]); rewrite Hz.
  - left. split; [exact Hsp | lra].
  - right. split; [exact Hsp | left; lra].
  - right. split; [exact Hsp | right; lra].
Qed.

Lemma centered_coords_heights_witness :
  (1 <= 1)%nat /\
  nth_error (Structure.sites (replicated_sheet 1 3.18)) 0 =
    Some (Structure.mk_site "Mo"
            (Structure.wrap ((vx (0, 0, 0.5) + INR 0) / INR 1, vy (0, 0, 0.5),
                             vz (0, 0, 0.5)))) /\
  exists p,
    nth_error (centered_coords (replicated_sheet 1 3.18)) 0 = Some p /\
    (("Mo"%string = "Mo"%string /\ vz p = 0) \/
     ("Mo"%string = "S"%string /\ (vz p = - 1.56 \/ vz p = 1.56))).
Proof.
  split; [lia |]. split; [reflexivity |].
  apply (centered_coords_heights 1 3.18 0
           (Structure.mk_site "Mo"
              (Structure.wrap ((vx (0, 0, 0.5) + INR 0) / INR 1, vy (0, 0, 0.5),
                               vz (0, 0, 0.5))))); [lia | reflexivity].
Defined.

(** ** The coordinates of the tilted cell *)



(** * The solver and the builder: the remaining claims *)

(** ** The guard and the range of the solver *)

Lemma threshold_above_1 : 1 < overflow_threshold.
Proof.
  apply Rle_lt_trans with (1e76 ^ 4); [lra | apply ten_304_below_threshold].
Qed.

Lemma solve_returns_below_threshold (L h : R) :
  0 <= h -> 2 * h <= L -> L ^ 4 < overflow_threshold ->
  solve_box_geometry L h = inr (L_planar_of L h, L_z_of L h, theta_of L h).
Proof.
  intros Hh HL H4. pose proof threshold_above_1 as H1.
  assert (HL2 : 0 <= L * L) by nra.
  assert (H44 : L ^ 4 = (L * L) * (L * L)) by ring.
  unfold solve_box_geometry.
  destruct (Rlt_dec L (2 * h)) as [Hlt | _]; [lra |].
  rewrite (py_pow_returns L 4) by (rewrite Rabs_right; nra). cbn [bind].
  rewrite (py_pow_returns (L * h) 2).
  2: { rewrite Rabs_right by nra.
       assert (L * h <= L * L / 2) by nra. assert (0 <= L * h) by nra. nra. }
  cbn [bind].
  rewrite (py_pow_returns L 2).
  2: { rewrite Rabs_right by nra.
       destruct (Rle_lt_dec (L * L) 1) as [Hs | Hb]; nra. }
  reflexivity.
Qed.

(** C1, as amended: for a positive sheet length and a positive spacing,
    the solver raises its [ValueError], and returns nothing, when the
    sheet is shorter than twice the spacing; otherwise it returns a triple
    as long as the fourth power of the sheet length is in the range of
    the doubles, and raises [OverflowError] beyond; for a sheet of
    length 10 and a spacing of 6 it raises the [ValueError]. *)
Theorem solve_box_geometry_guard (L h : R) (HL : 0 < L) (Hh : 0 < h) :
  (L < 2 * h ->
     solve_box_geometry L h = inl (ValueError L (2 * h)) /\
     forall t, solve_box_geometry L h <> inr t) /\
  (2 * h <= L -> L ^ 4 < overflow_threshold ->
     exists t, solve_box_geometry L h = inr t) /\
  (2 * h <= L -> overflow_threshold <= L ^ 4 ->
     solve_box_geometry L h = inl OverflowError) /\
  solve_box_geometry 10 6 = inl (ValueError 10 (2 * 6)).
Proof.
  split; [| split; [| split]].
  - intros Hlt. split; [now apply solve_raises |].
    intros t. rewrite solve_raises by assumption. discriminate.
  - intros Hle H4. eexists. apply solve_returns_below_threshold; lra.
  - intros Hle H4. apply solve_overflows; [exact Hle |].
    rewrite Rabs_right; [exact H4 |]. apply Rle_ge. apply pow_le. lra.
  - apply solve_raises. lra.
Qed.

Lemma solve_box_geometry_guard_witness :
  0 < 10 /\ 0 < 6 /\
  (10 < 2 * 6 ->
     solve_box_geometry 10 6 = inl (ValueError 10 (2 * 6)) /\
     forall t, solve_box_geometry 10 6 <> inr t) /\
  (2 * 6 <= 10 -> 10 ^ 4 < overflow_threshold ->
     exists t, solve_box_geometry 10 6 = inr t) /\
  (2 * 6 <= 10 -> overflow_threshold <= 10 ^ 4 ->
     solve_box_geometry 10 6 = inl OverflowError) /\
  solve_box_geometry 10 6 = inl (ValueError 10 (2 * 6)).
Proof.
  split; [lra |]. split; [lra |].
  apply (solve_box_geometry_guard 10 6); lra.
Defined.

(** C1 as stated fails: the sheet length [1e200] is at least twice the
    spacing 1, and the solver raises ([OverflowError], on
    [length_sheet ** 4]) instead of returning a triple. *)
Lemma solve_box_geometry_guard_counterexample :
  0 < 1e200 /\ 0 < 1 /\ 2 * 1 <= 1e200 /\
  solve_box_geometry 1e200 1 = inl OverflowError /\
  ~ (exists t, solve_box_geometry 1e200 1 = inr t).
Proof.
  assert (H : solve_box_geometry 1e200 1 = inl OverflowError).
  { apply solve_overflows; [lra |].
    rewrite Rabs_right; [apply ten_800_above_threshold |].
    apply Rle_ge, pow_le. lra. }
  repeat split; try lra; [exact H |].
  intros [t Ht]. rewrite H in Ht. discriminate.
Qed.

(** C10, as amended: the solver tests only
    [length_sheet < 2 * h_spacing]; a spacing of 0 passes the test, and
    for every sheet length in [double_range] the solver returns the flat
    triple [(L, 0, 0)], whose angle 0 is outside the range of the valid
    inputs. *)
Theorem solve_box_geometry_zero_spacing (L : R) (HR : double_range L) :
  solve_box_geometry L 0 = inr (L, 0, 0) /\
  (forall e, solve_box_geometry L 0 <> inl e) /\
  ~ (0 < theta_of L 0 <= PI / 4).
Proof.
  destruct HR as [Hmin Hmax]. assert (HL : 0 < L) by lra.
  assert (Ht : term_of L 0 = L ^ 2).
  { unfold term_of. replace (L ^ 4 - 4 * (L * 0) ^ 2) with ((L ^ 2) ^ 2) by ring.
    apply sqrt_pow2. nra. }
  assert (Hp : L_planar_of L 0 = L).
  { unfold L_planar_of. rewrite Ht.
    replace ((L ^ 2 + L ^ 2) / 2) with (L ^ 2) by field.
    apply sqrt_pow2. lra. }
  assert (Hz : L_z_of L 0 = 0).
  { unfold L_z_of. rewrite Hp. field. lra. }
  assert (Hth : theta_of L 0 = 0).
  { unfold theta_of. rewrite Hz, Hp.
    replace (0 / L) with 0 by (field; lra). apply atan_0. }
  assert (Hret : solve_box_geometry L 0 = inr (L, 0, 0)).
  { rewrite valid_returns by lra. now rewrite Hp, Hz, Hth. }
  split; [exact Hret |]. split.
  - intros e. rewrite Hret. discriminate.
  - rewrite Hth. lra.
Qed.

Lemma solve_box_geometry_zero_spacing_witness :
  double_range 10 /\
  solve_box_geometry 10 0 = inr (10, 0, 0) /\
  (forall e, solve_box_geometry 10 0 <> inl e) /\
  ~ (0 < theta_of 10 0 <= PI / 4).
Proof.
  assert (H : double_range 10) by (unfold double_range; lra).
  split; [exact H |]. apply (solve_box_geometry_zero_spacing 10). exact H.
Defined.

(** C10 as stated fails at both ends of the doubles: for the positive
    sheet length [1e200] and the spacing 0 the solver raises
    [OverflowError]; for [1e-100] the fourth power underflows to 0 and the
    planar length returned is [7.07e-101], not the sheet length. *)
Lemma solve_box_geometry_zero_spacing_counterexample :
  0 < 1e200 /\
  solve_box_geometry 1e200 0 = inl OverflowError /\
  B64.solve_box_lengths 1e200 0 = inl B64.OverflowError /\
  B64.solve_box_lengths 1e-100 0 = inr (7.0710678118654751e-101, 0, 0)%float /\
  (7.0710678118654751e-101 <? 1e-100)%float = true.
Proof.
  split; [lra |]. split; [| repeat split; vm_compute; reflexivity].
  apply solve_overflows; [lra |].
  rewrite Rabs_right; [apply ten_800_above_threshold |].
  apply Rle_ge, pow_le. lra.
Qed.

(** ** The edge [length_sheet = 2 * h_spacing], on the doubles *)

(** C2, at the edge: the sheet length 0.2 is twice the spacing 0.1 and
    passes the guard; the radicand of line 63 rounds to a negative
    double, its square root is NaN, and the solver returns NaN for the
    planar length, for the perpendicular length and for the argument of
    [np.arctan]: not the closed form. *)
Theorem solve_box_geometry_edge_closed_form :
  (0.2 <? 2 * 0.1)%float = false /\
  (0.2 =? 2 * 0.1)%float = true /\
  B64.radicand 0.2 0.1 = inr (-4.3368086899420177e-19)%float /\
  B64.solve_box_lengths 0.2 0.1 = inr (nan, nan, nan).
Proof. repeat split; vm_compute; reflexivity. Qed.

(** C3, at the edge: for the sheet length 22.26 and the spacing 11.13
    the solver returns lengths whose squares do not add up to the square
    of the sheet length: the sum is NaN. *)
Theorem solve_box_geometry_edge_closure :
  exists L_planar L_z slope : float,
    B64.solve_box_lengths 22.26 11.13 = inr (L_planar, L_z, slope) /\
    is_nan (L_planar * L_planar + L_z * L_z)%float = true /\
    (L_planar * L_planar + L_z * L_z =? 22.26 * 22.26)%float = false.
Proof.
  exists nan, nan, nan. repeat split; vm_compute; reflexivity.
Qed.

(** C4, at the edge: for [N = 7], [a_param = 3.18], [h_spacing = 11.13]
    the sheet length [7 * 3.18] is twice the spacing and the argument of
    [np.arctan] is NaN, so the angle is NaN; for [N = 1],
    [h_spacing = 1.59] the argument is above 1, the tangent of
    [PI / 4]. *)
Theorem tilt_angle_edge :
  (7 * 3.18 =? 2 * 11.13)%float = true /\
  B64.solve_box_lengths (7 * 3.18) 11.13 = inr (nan, nan, nan) /\
  (1 * 3.18 =? 2 * 1.59)%float = true /\
  B64.solve_box_lengths (1 * 3.18) 1.59 =
    inr (2.248599564173221, 2.2485995641732215, 1.0000000000000002)%float /\
  (1 <? 1.0000000000000002)%float = true.
Proof. repeat split; vm_compute; reflexivity. Qed.

(** C9, at the edge: for [N = 7], [a_param = 3.18], [h_spacing = 11.13]
    the lengths handed to [Lattice.from_parameters] are NaN, the second
    one apart: the box of the returned cell has no length along its
    first and third axes. *)
Theorem create_tilted_cell_edge_box :
  B64.box_lengths (7 * 3.18) (3.18 * PrimFloat.sqrt 3) 11.13 =
    inr (nan, 3.18 * PrimFloat.sqrt 3, nan)%float /\
  is_nan (3.18 * PrimFloat.sqrt 3)%float = false.
Proof. repeat split; vm_compute; reflexivity. Qed.

(** ** The atoms of the tilted cell *)

(** C6: for [N >= 1], a spacing of at least [1e-76] and a sheet at least
    twice as long, of at most [1e76], the tilted cell has as many atoms
    as the replicated sheet, [6 N], and the same species in the same
    order, hence the same multiset. *)
Theorem create_tilted_cell_preserves_atoms (N : nat) (h a : R)
    (HN : (1 <= N)%nat) (Hmin : 1e-76 <= h)
    (HL : 2 * h <= INR N * a) (Hmax : INR N * a <= 1e76) :
  exists flat sheet cell theta,
    get_rectangular_mos2 a 3.12 20 = inr flat /\
    Structure.make_supercell flat N = inr sheet /\
    create_tilted_cell N h a = inr (cell, theta) /\
    length (Structure.sites flat) = 6%nat /\
    length (Structure.sites sheet) = (6 * N)%nat /\
    length (Structure.sites cell) = length (Structure.sites sheet) /\
    Structure.species cell = Structure.species sheet /\
    Permutation (Structure.species cell) (Structure.species sheet).
Proof.
  assert (Hh : 0 < h) by lra.
  destruct (valid_sheet N h a Hh HL) as (_ & _ & Ha).
  exists (flat_cell a), (replicated_sheet N a), (tilted_cell N h a),
         (theta_of (INR N * a) h).
  split; [apply get_rectangular_mos2_returns |].
  split; [apply make_supercell_returns; [exact HN | lra] |].
  split; [now apply create_tilted_cell_returns |].
  pose proof (tilted_cell_species N h a) as Hsp.
  split; [reflexivity |].
  split; [apply replicated_sheet_length |].
  split; [| split; [exact Hsp | now rewrite Hsp]].
  apply (f_equal (@length string)) in Hsp.
  unfold Structure.species in Hsp. now rewrite !length_map in Hsp.
Qed.

Lemma create_tilted_cell_preserves_atoms_witness :
  (1 <= 10)%nat /\ 1e-76 <= 15 /\ 2 * 15 <= INR 10 * 3.18 /\
  INR 10 * 3.18 <= 1e76 /\
  exists flat sheet cell theta,
    get_rectangular_mos2 3.18 3.12 20 = inr flat /\
    Structure.make_supercell flat 10 = inr sheet /\
    create_tilted_cell 10 15 3.18 = inr (cell, theta) /\
    length (Structure.sites flat) = 6%nat /\
    length (Structure.sites sheet) = (6 * 10)%nat /\
    length (Structure.sites cell) = length (Structure.sites sheet) /\
    Structure.species cell = Structure.species sheet /\
    Permutation (Structure.species cell) (Structure.species sheet).
Proof.
  split; [lia |]. split; [lra |]. split; [simpl; lra |]. split; [simpl; lra |].
  apply (create_tilted_cell_preserves_atoms 10 15 3.18); [lia | lra | simpl; lra | simpl; lra].
Defined.



(** * Further properties of the solver, off the edge *)

(** X1: for a spacing of at least [1e-76] and a sheet more than twice
    as long, of at most [1e76], the box lengths are the legs of the sheet
    length under the returned angle: [L_planar = L cos theta] and
    [L_z = L sin theta]. *)
Theorem solve_box_geometry_legs (L h : R)
    (Hmin : 1e-76 <= h) (HL : 2 * h < L) (Hmax : L <= 1e76) :
  exists L_planar L_z theta,
    solve_box_geometry L h = inr (L_planar, L_z, theta) /\
    L_planar = L * cos theta /\
    L_z = L * sin theta.
Proof.
  assert (Hh : 0 < h) by lra.
  exists (L_planar_of L h), (L_z_of L h), (theta_of L h).
  split; [apply valid_returns; lra |].
  rewrite cos_theta, sin_theta by lra.
  split; field; lra.
Qed.

Lemma solve_box_geometry_legs_witness :
  1e-76 <= 15 /\ 2 * 15 < 31.8 /\ 31.8 <= 1e76 /\
  exists L_planar L_z theta,
    solve_box_geometry 31.8 15 = inr (L_planar, L_z, theta) /\
    L_planar = 31.8 * cos theta /\
    L_z = 31.8 * sin theta.
Proof.
  split; [lra |]. split; [lra |]. split; [simpl; lra |].
  apply (solve_box_geometry_legs 31.8 15); [lra | lra | lra].
Defined.

(** X2: under the same hypotheses the returned box realises the
    requested spacing: two periodic images of the tilted sheet, one box
    height (or one box width) apart, are at perpendicular distance [h]:
    [L_z cos theta = h] and [L_planar sin theta = h]; the box area
    [L_planar L_z] is [L h]. *)
Theorem solve_box_geometry_spacing (L h : R)
    (Hmin : 1e-76 <= h) (HL : 2 * h < L) (Hmax : L <= 1e76) :
  exists L_planar L_z theta,
    solve_box_geometry L h = inr (L_planar, L_z, theta) /\
    L_z * cos theta = h /\
    L_planar * sin theta = h /\
    L_planar * L_z = L * h.
Proof.
  assert (Hh : 0 < h) by lra. assert (HL' : 2 * h <= L) by lra.
  exists (L_planar_of L h), (L_z_of L h), (theta_of L h).
  split; [apply valid_returns; lra |].
  pose proof (area L h Hh HL') as Ha.
  rewrite cos_theta, sin_theta by assumption.
  split; [| split; [| exact Ha]].
  - transitivity (L_planar_of L h * L_z_of L h / L); [field; lra |].
    rewrite Ha. field. lra.
  - transitivity (L_planar_of L h * L_z_of L h / L); [field; lra |].
    rewrite Ha. field. lra.
Qed.

Lemma solve_box_geometry_spacing_witness :
  1e-76 <= 15 /\ 2 * 15 < 31.8 /\ 31.8 <= 1e76 /\
  exists L_planar L_z theta,
    solve_box_geometry 31.8 15 = inr (L_planar, L_z, theta) /\
    L_z * cos theta = 15 /\
    L_planar * sin theta = 15 /\
    L_planar * L_z = 31.8 * 15.
Proof.
  split; [lra |]. split; [lra |]. split; [simpl; lra |].
  apply (solve_box_geometry_spacing 31.8 15); [lra | lra | lra].
Defined.

(** X5: the guard does not look at the sign of the spacing.  For a
    negative spacing [- h], with [h] at least [1e-76], and a sheet more
    than twice as long as [h], of at most [1e76], the solver returns the
    mirror image of its result for [h]: the same planar length, the
    opposite perpendicular length and the opposite angle, both
    negative. *)
Theorem solve_box_geometry_negative_spacing (L h : R)
    (Hmin : 1e-76 <= h) (HL : 2 * h < L) (Hmax : L <= 1e76) :
  solve_box_geometry L (- h) =
  inr (L_planar_of L h, - L_z_of L h, - theta_of L h) /\
  solve_box_geometry L h =
  inr (L_planar_of L h, L_z_of L h, theta_of L h) /\
  - L_z_of L h < 0 /\ - theta_of L h < 0.
Proof.
  assert (Hh : 0 < h) by lra. assert (HL' : 2 * h <= L) by lra.
  assert (Ht : term_of L (- h) = term_of L h).
  { unfold term_of. f_equal. ring. }
  assert (Hp : L_planar_of L (- h) = L_planar_of L h).
  { unfold L_planar_of. now rewrite Ht. }
  assert (Hp0 : 0 < L_planar_of L h) by (apply L_planar_pos; lra).
  assert (Hz : L_z_of L (- h) = - L_z_of L h).
  { unfold L_z_of. rewrite Hp. field. lra. }
  assert (Hth : theta_of L (- h) = - theta_of L h).
  { unfold theta_of. rewrite Hz, Hp, <- atan_opp. f_equal. field. lra. }
  split; [| split].
  - rewrite solve_returns; [now rewrite Hp, Hz, Hth | | exact Hmax].
    rewrite Rabs_Ropp, Rabs_right; lra.
  - apply valid_returns; lra.
  - pose proof (Lz_pos L h Hh HL'). pose proof (theta_pos L h Hh HL'). lra.
Qed.

Lemma solve_box_geometry_negative_spacing_witness :
  1e-76 <= 15 /\ 2 * 15 < 31.8 /\ 31.8 <= 1e76 /\
  solve_box_geometry 31.8 (- 15) =
  inr (L_planar_of 31.8 15, - L_z_of 31.8 15, - theta_of 31.8 15) /\
  solve_box_geometry 31.8 15 =
  inr (L_planar_of 31.8 15, L_z_of 31.8 15, theta_of 31.8 15) /\
  - L_z_of 31.8 15 < 0 /\ - theta_of 31.8 15 < 0.
Proof.
  split; [lra |]. split; [lra |]. split; [simpl; lra |].
  apply (solve_box_geometry_negative_spacing 31.8 15); [lra | lra | lra].
Defined.

(** X6: the solver is homogeneous: for a sheet more than twice as long
    as the spacing, scaling both by the same [k > 0] (a change of length
    unit that keeps the spacing at least [1e-76] and the sheet at most
    [1e76]) scales both returned lengths by [k] and leaves the angle
    unchanged. *)
Theorem solve_box_geometry_scaling (k L h : R)
    (Hk : 0 < k) (Hmin : 1e-76 <= h) (Hkmin : 1e-76 <= k * h)
    (HL : 2 * h < L) (Hmax : L <= 1e76) (Hkmax : k * L <= 1e76) :
  exists L_planar L_z theta,
    solve_box_geometry L h = inr (L_planar, L_z, theta) /\
    solve_box_geometry (k * L) (k * h) = inr (k * L_planar, k * L_z, theta).
Proof.
  assert (Hh : 0 < h) by lra.
  exists (L_planar_of L h), (L_z_of L h), (theta_of L h).
  split; [apply valid_returns; lra |].
  assert (Hp0 : 0 < L_planar_of L h) by (apply L_planar_pos; lra).
  assert (Ht : term_of (k * L) (k * h) = k * k * term_of L h).
  { unfold term_of.
    replace ((k * L) ^ 4 - 4 * (k * L * (k * h)) ^ 2)
      with ((k * k) * (k * k) * (L ^ 4 - 4 * (L * h) ^ 2)) by ring.
    rewrite sqrt_mult; [| nra | apply radicand_nonneg; lra].
    rewrite sqrt_square by nra. reflexivity. }
  assert (Hp : L_planar_of (k * L) (k * h) = k * L_planar_of L h).
  { unfold L_planar_of. rewrite Ht. fold (term_of L h).
    replace (((k * L) ^ 2 + k * k * term_of L h) / 2)
      with (k * k * ((L ^ 2 + term_of L h) / 2)) by field.
    rewrite sqrt_mult; [| nra | left; apply planar_radicand_pos; lra].
    rewrite sqrt_square by lra. reflexivity. }
  assert (Hz : L_z_of (k * L) (k * h) = k * L_z_of L h).
  { unfold L_z_of. rewrite Hp. field. lra. }
  assert (Hth : theta_of (k * L) (k * h) = theta_of L h).
  { unfold theta_of. rewrite Hz, Hp. f_equal. field. lra. }
  rewrite valid_returns by nra. now rewrite Hp, Hz, Hth.
Qed.

Lemma solve_box_geometry_scaling_witness :
  0 < 10 /\ 1e-76 <= 1.5 /\ 1e-76 <= 10 * 1.5 /\
  2 * 1.5 < 3.18 /\ 3.18 <= 1e76 /\ 10 * 3.18 <= 1e76 /\
  exists L_planar L_z theta,
    solve_box_geometry 3.18 1.5 = inr (L_planar, L_z, theta) /\
    solve_box_geometry (10 * 3.18) (10 * 1.5) = inr (10 * L_planar, 10 * L_z, theta).
Proof.
  split; [lra |]. split; [lra |]. split; [lra |]. split; [lra |].
  split; [lra |]. split; [lra |].
  apply (solve_box_geometry_scaling 10 3.18 1.5); lra.
Defined.

(** X16: for a spacing of at least [1e-76] and a sheet more than twice
    as long, of at most [1e76], the solver returns the closed form: the
    planar length is positive and its square is
    [(L^2 + sqrt (L^4 - 4 (L h)^2)) / 2], the root of the quadratic
    [X^2 - L^2 X + (L h)^2] taken with the [+ sqrt], never the smaller
    one; the perpendicular length is [L h / planar] and the angle is the
    arc tangent of their ratio. *)
Theorem solve_box_geometry_closed_form (L h : R)
    (Hmin : 1e-76 <= h) (HL : 2 * h < L) (Hmax : L <= 1e76) :
  exists L_planar L_z theta,
    solve_box_geometry L h = inr (L_planar, L_z, theta) /\
    0 < L_planar /\
    L_planar ^ 2 = (L ^ 2 + sqrt (L ^ 4 - 4 * (L * h) ^ 2)) / 2 /\
    L_z = (L * h) / L_planar /\
    theta = atan (L_z / L_planar) /\
    (L_planar ^ 2) ^ 2 - L ^ 2 * L_planar ^ 2 + (L * h) ^ 2 = 0 /\
    (L ^ 2 - sqrt (L ^ 4 - 4 * (L * h) ^ 2)) / 2 <= L_planar ^ 2.
Proof.
  assert (Hh : 0 < h) by lra.
  assert (Hh0 : 0 <= h) by lra. assert (HL0 : 0 < L) by lra.
  assert (HL' : 2 * h <= L) by lra.
  exists (L_planar_of L h), (L_z_of L h), (theta_of L h).
  assert (Hs : L_planar_of L h * L_planar_of L h = (L ^ 2 + term_of L h) / 2)
    by (apply L_planar_sqr; assumption).
  assert (Hr : (L ^ 2 + term_of L h) / 2 * ((L ^ 2 + term_of L h) / 2)
               - L ^ 2 * ((L ^ 2 + term_of L h) / 2) + (L * h) ^ 2 = 0)
    by (apply planar_sqr_root; assumption).
  pose proof (term_nonneg L h) as Ht.
  fold (term_of L h).
  assert (Hsq : L_planar_of L h ^ 2 = (L ^ 2 + term_of L h) / 2)
    by (rewrite <- Hs; ring).
  split; [apply valid_returns; lra |].
  split; [now apply L_planar_pos |].
  split; [exact Hsq |].
  split; [reflexivity |].
  split; [reflexivity |].
  split; rewrite Hsq; lra.
Qed.

Lemma solve_box_geometry_closed_form_witness :
  1e-76 <= 15 /\ 2 * 15 < 31.8 /\ 31.8 <= 1e76 /\
  exists L_planar L_z theta,
    solve_box_geometry 31.8 15 = inr (L_planar, L_z, theta) /\
    0 < L_planar /\
    L_planar ^ 2 = (31.8 ^ 2 + sqrt (31.8 ^ 4 - 4 * (31.8 * 15) ^ 2)) / 2 /\
    L_z = (31.8 * 15) / L_planar /\
    theta = atan (L_z / L_planar) /\
    (L_planar ^ 2) ^ 2 - 31.8 ^ 2 * L_planar ^ 2 + (31.8 * 15) ^ 2 = 0 /\
    (31.8 ^ 2 - sqrt (31.8 ^ 4 - 4 * (31.8 * 15) ^ 2)) / 2 <= L_planar ^ 2.
Proof.
  split; [lra |]. split; [lra |]. split; [simpl; lra |].
  apply (solve_box_geometry_closed_form 31.8 15); [lra | lra | lra].
Defined.

(** X17: under the same hypotheses the returned lengths close the box,
    [planar^2 + perpendicular^2 = L^2]; for a sheet of length 31.8 and a
    spacing of 15 the perpendicular length is below the planar one and
    the two squares add up to [31.8^2]. *)
Theorem solve_box_geometry_closure (L h : R)
    (Hmin : 1e-76 <= h) (HL : 2 * h < L) (Hmax : L <= 1e76) :
  (exists L_planar L_z theta,
     solve_box_geometry L h = inr (L_planar, L_z, theta) /\
     L_planar ^ 2 + L_z ^ 2 = L ^ 2 /\
     theta = atan (L_z / L_planar)) /\
  (exists L_planar L_z theta,
     solve_box_geometry 31.8 15 = inr (L_planar, L_z, theta) /\
     L_z < L_planar /\
     L_planar ^ 2 + L_z ^ 2 = 31.8 ^ 2).
Proof.
  assert (Hh : 0 < h) by lra.
  split.
  - exists (L_planar_of L h), (L_z_of L h), (theta_of L h).
    split; [apply valid_returns; lra |].
    split; [apply closure; lra | reflexivity].
  - exists (L_planar_of 31.8 15), (L_z_of 31.8 15), (theta_of 31.8 15).
    split; [apply valid_returns; lra |].
    split; [apply L_z_lt_L_planar; lra | apply closure; lra].
Qed.

Lemma solve_box_geometry_closure_witness :
  1e-76 <= 5 /\ 2 * 5 < 31.8 /\ 31.8 <= 1e76 /\
  (exists L_planar L_z theta,
     solve_box_geometry 31.8 5 = inr (L_planar, L_z, theta) /\
     L_planar ^ 2 + L_z ^ 2 = 31.8 ^ 2 /\
     theta = atan (L_z / L_planar)) /\
  (exists L_planar L_z theta,
     solve_box_geometry 31.8 15 = inr (L_planar, L_z, theta) /\
     L_z < L_planar /\
     L_planar ^ 2 + L_z ^ 2 = 31.8 ^ 2).
Proof.
  split; [lra |]. split; [lra |]. split; [simpl; lra |].
  apply (solve_box_geometry_closure 31.8 5); [lra | lra | lra].
Defined.

(** * Further properties of the builder *)

(** X7: for [N >= 1], a positive lattice constant, a spacing of at
    least [1e-76] and a sheet length [N a] of at most [1e76], the builder
    fails exactly when the solver fails on [N a], and with the solver's
    own exception; when the builder returns, its angle is the one the
    solver returns for [N a]. *)
Theorem create_tilted_cell_failure (N : nat) (h a : R)
    (HN : (1 <= N)%nat) (Ha : 0 < a) (Hmin : 1e-76 <= h)
    (Hmax : INR N * a <= 1e76) :
  (forall e, create_tilted_cell N h a = inl e <->
             solve_box_geometry (INR N * a) h = inl e) /\
  (forall cell theta, create_tilted_cell N h a = inr (cell, theta) ->
     exists L_planar L_z,
       solve_box_geometry (INR N * a) h = inr (L_planar, L_z, theta)).
Proof.
  assert (Hh : 0 < h) by lra.
  destruct (Rlt_le_dec (INR N * a) (2 * h)) as [Hlt | Hle].
  - rewrite create_tilted_cell_raises, solve_raises by assumption.
    split; [intros e; split; intros He; injection He as <-; reflexivity |].
    intros cell theta Heq. discriminate.
  - rewrite create_tilted_cell_returns, valid_returns by lra.
    split; [intros e; split; discriminate |].
    intros cell theta Heq. injection Heq as _ <-. eauto.
Qed.

Lemma create_tilted_cell_failure_witness :
  (1 <= 10)%nat /\ 0 < 3.18 /\ 1e-76 <= 15 /\ INR 10 * 3.18 <= 1e76 /\
  (forall e, create_tilted_cell 10 15 3.18 = inl e <->
             solve_box_geometry (INR 10 * 3.18) 15 = inl e) /\
  (forall cell theta, create_tilted_cell 10 15 3.18 = inr (cell, theta) ->
     exists L_planar L_z,
       solve_box_geometry (INR 10 * 3.18) 15 = inr (L_planar, L_z, theta)).
Proof.
  split; [lia |]. split; [lra |]. split; [lra |]. split; [simpl; lra |].
  apply (create_tilted_cell_failure 10 15 3.18); [lia | lra | lra | simpl; lra].
Defined.










